(** * OTP-Sender: the HTTP gateway and the connection manager of queen.js

    A shallow embedding of [src/queen.js].  The file has two parts that share
    one global, [sockInstance]:

    - the HTTP gateway: the handlers of [GET /] and [POST /send-otp];
    - the connection manager: [connectToWA], its ["connection.update"]
      listener and the timers it arms with [setTimeout].

    JavaScript strings are sequences of UTF-16 code units, values parsed from
    a JSON body are a small tagged union, exceptions are an explicit outcome,
    and the calls made to the messaging library are recorded in a list next
    to the response.  Console output is not modelled, apart from the
    arguments that [logError] builds for it. *)

From Stdlib Require Import List String Ascii Bool NArith ZArith QArith Lia.
Import ListNotations.
Close Scope Q_scope.
Open Scope list_scope.

(** ** JavaScript strings *)

Module JsString.

(** A string is its list of UTF-16 code units. *)
Definition jsstring := list N.

(** Literals of the source, written as Rocq strings (all of them ASCII but
    one, which is spelled with its code unit where it occurs). *)
Definition u (s : string) : jsstring :=
  List.map N_of_ascii (list_ascii_of_string s).

Fixpoint eqb (a b : jsstring) : bool :=
  match a, b with
  | [], [] => true
  | x :: a', y :: b' => N.eqb x y && eqb a' b'
  | _, _ => false
  end.

(** [s.startsWith(p)] *)
Fixpoint starts_with (s p : jsstring) : bool :=
  match p, s with
  | [], _ => true
  | _ :: _, [] => false
  | y :: p', x :: s' => N.eqb x y && starts_with s' p'
  end.

(** [s.includes(p)]: [p] occurs in [s] at some position; the comparison is
    code unit by code unit, hence case-sensitive. *)
Fixpoint includes (s p : jsstring) : bool :=
  starts_with s p ||
  match s with
  | [] => false
  | _ :: s' => includes s' p
  end.

(** The mathematical reading of "contains": [p] is a contiguous block
    of [s]. *)
Definition contains (s p : jsstring) : Prop :=
  exists a b, s = a ++ p ++ b.

(** The character class [[0-9]]. *)
Definition is_digit (c : N) : bool := (48 <=? c)%N && (c <=? 57)%N.

(** [s.replace(/[^0-9]/g, "")]: the scan goes left to right, every code
    unit matched by the negated class is replaced by the empty string and
    the others are copied. *)
Fixpoint replace_non_digits (s : jsstring) : jsstring :=
  match s with
  | [] => []
  | c :: s' =>
      if is_digit c then c :: replace_non_digits s'
      else [] ++ replace_non_digits s'
  end.

End JsString.
Import JsString.

(** ** Values *)

(** A JavaScript number: a finite value, an infinity or NaN.  (The two zeros
    are both [Finite 0]; nothing below tells them apart.) *)
Inductive jsnum :=
| Finite (q : Q)
| PosInfinity
| NegInfinity
| NaN.

(** The values a parsed JSON body can hold, and [undefined] for a property
    that is not there. *)
#[local] Set Warnings "-register-all".
Inductive jsval :=
| JUndefined
| JNull
| JBool (b : bool)
| JNum (n : jsnum)
| JStr (s : jsstring)
| JArr (l : list jsval)
| JObj (l : list (jsstring * jsval)).

Definition num_of_nat (n : nat) : jsval := JNum (Finite (inject_Z (Z.of_nat n))).

(** ToBoolean: what [!v] and [v ? a : b] test. *)
Definition truthy (v : jsval) : bool :=
  match v with
  | JUndefined | JNull => false
  | JBool b => b
  | JNum (Finite q) => negb (Qeq_bool q 0)
  | JNum NaN => false
  | JNum _ => true
  | JStr s => match s with [] => false | _ :: _ => true end
  | JArr _ | JObj _ => true
  end.

(** Property lookup on a parsed object: when a key is repeated the last
    occurrence is the one kept. *)
Fixpoint get_prop (l : list (jsstring * jsval)) (k : jsstring) : jsval :=
  match l with
  | [] => JUndefined
  | (k', v) :: l' =>
      match get_prop l' k with
      | JUndefined => if JsString.eqb k' k then v else JUndefined
      | w => w
      end
  end.

(** [v?.length] *)
Definition opt_length (v : jsval) : jsval :=
  match v with
  | JUndefined | JNull => JUndefined
  | JStr s => num_of_nat (List.length s)
  | JArr l => num_of_nat (List.length l)
  | JObj l => get_prop l (u "length")
  | JBool _ | JNum _ => JUndefined
  end.

(** [v === "lit"] *)
Definition strict_eq_str (v : jsval) (lit : jsstring) : bool :=
  match v with
  | JStr s => JsString.eqb s lit
  | _ => false
  end.

(** ** Connections, errors, responses *)

(** A socket returned by [makeWASocket]: its identity and [conn.user.id],
    when the library has filled it in. *)
Record conn := { conn_id : nat; conn_user_id : option jsstring }.

(** A thrown [Error]: the handlers only read its [message]. *)
Record js_error := { message_of : jsstring }.

(** One call [sock.sendMessage(jid, content)]. *)
Record send_call := { via : conn; jid_of : jsstring; content_of : jsval }.

(** The promise returned by [sendMessage], once settled. *)
Inductive settled :=
| Resolved
| Rejected (e : js_error).

(** The library's send operation, as seen by its callers. *)
Definition send_op := conn -> jsstring -> jsval -> settled.

(** What [res.status(code).json(obj)] sends; [res.json(obj)] alone keeps the
    default status, 200. *)
Record response := { status : N; payload : jsval }.

Definition res_json (obj : jsval) : response := {| status := 200; payload := obj |}.
Definition res_status_json (code : N) (obj : jsval) : response :=
  {| status := code; payload := obj |}.

(** The fields of a response object, in order. *)
Definition keys (v : jsval) : list jsstring :=
  match v with
  | JObj l => List.map fst l
  | _ => []
  end.

Definition field (v : jsval) (k : jsstring) : jsval :=
  match v with
  | JObj l => get_prop l k
  | _ => JUndefined
  end.

(** ** The HTTP gateway *)

Module Gateway.

(** The literals of the two handlers. *)
Definition suffix : jsstring := u "@s.whatsapp.net".
Definition not_authorized : jsstring := u "Not authorized".
Definition not_registered : jsstring := u "not registered".
Definition invalid : jsstring := u "invalid".
Definition msg_unauthenticated : jsstring :=
  u "WhatsApp not authenticated. Please scan QR code.".
Definition msg_bad_number : jsstring :=
  u "Invalid phone number or number not registered on WhatsApp".

(** The [TypeError] raised by [number.replace(...)] when [number] is not a
    string: no other value of a JSON body has a callable [replace]. *)
Definition replace_type_error : js_error :=
  {| message_of := u "number.replace is not a function" |}.

(** The body of a request, destructured: [const { number, message } = req.body]. *)
Record request := { number : jsval; message : jsval }.

(** How a [try] block ends: with a response sent, or with an exception. *)
Inductive outcome :=
| Responded (r : response)
| Thrown (e : js_error).

Section Handlers.

(** The library's send operation and the reading of the clock,
    [new Date().toISOString()], at the time the response is built. *)
Variable sendMessage : send_op.
Variable now : jsstring.

(** [GET /] *)
Definition health (sockInstance : option conn) : response :=
  res_json (JObj
    [ (u "status", JStr (u "online"));
      (u "service", JStr (u "XPROVerce WhatsApp OTP Server"));
      (u "whatsapp",
         JStr (match sockInstance with
               | Some _ => u "connected"
               | None => u "connecting"
               end));
      (u "timestamp", JStr now) ]).

(** [POST /send-otp], the [try] block, with the calls it makes to the
    library. *)
Definition send_otp_try (sockInstance : option conn) (req : request)
  : outcome * list send_call :=
  if negb (truthy (number req)) || negb (truthy (message req)) then
    (Responded (res_status_json 400 (JObj
       [ (u "error", JStr (u "number & message required"));
         (u "received", JObj
            [ (u "number", number req);
              (u "messageLength", opt_length (message req)) ]) ])), [])
  else
    match sockInstance with
    | None =>
        (Responded (res_status_json 503 (JObj
           [ (u "error", JStr (u "WhatsApp not connected yet"));
             (u "message",
                JStr (u "Please wait for WhatsApp connection to establish")) ])), [])
    | Some sock =>
        match number req with
        | JStr s =>
            let cleanNumber := replace_non_digits s in
            let jid := cleanNumber ++ suffix in
            let content := JObj [ (u "text", message req) ] in
            let call := {| via := sock; jid_of := jid; content_of := content |} in
            match sendMessage sock jid content with
            | Rejected e => (Thrown e, [call])
            | Resolved =>
                (Responded (res_json (JObj
                   [ (u "ok", JBool true);
                     (u "message", JStr (u "OTP sent successfully"));
                     (u "to", JStr cleanNumber);
                     (u "timestamp", JStr now) ])), [call])
            end
        | _ => (Thrown replace_type_error, [])
        end
    end.

(** The classification made by the [catch] block: status code and the
    text put in [details]. *)
Definition classify (error : js_error) : N * jsstring :=
  let statusCode := 500%N in
  let errorMessage := message_of error in
  if includes (message_of error) not_authorized then
    (401%N, msg_unauthenticated)
  else if includes (message_of error) not_registered
          || includes (message_of error) invalid then
    (400%N, msg_bad_number)
  else (statusCode, errorMessage).

(** [POST /send-otp], the [catch] block. *)
Definition send_otp_catch (error : js_error) : response :=
  let '(statusCode, errorMessage) := classify error in
  res_status_json statusCode (JObj
    [ (u "error", JStr (u "Failed to send message"));
      (u "details", JStr errorMessage);
      (u "timestamp", JStr now) ]).

(** [POST /send-otp] *)
Definition send_otp (sockInstance : option conn) (req : request)
  : response * list send_call :=
  match send_otp_try sockInstance req with
  | (Responded r, calls) => (r, calls)
  | (Thrown e, calls) => (send_otp_catch e, calls)
  end.

End Handlers.

(** A field of the body is missing ([undefined]) or is the empty string. *)
Definition absent_or_empty (v : jsval) : Prop := v = JUndefined \/ v = JStr [].

(** The body of the 400 response of the validation. *)
Definition validation_body (req : request) : jsval :=
  JObj [ (u "error", JStr (u "number & message required"));
         (u "received", JObj
            [ (u "number", number req);
              (u "messageLength", opt_length (message req)) ]) ].

(** The body of the 503 response. *)
Definition unavailable_body : jsval :=
  JObj [ (u "error", JStr (u "WhatsApp not connected yet"));
         (u "message", JStr (u "Please wait for WhatsApp connection to establish")) ].

(** Sample data: a socket, a clock reading, send operations that always
    resolve or always reject with a given text, and requests. *)
Definition c0 : conn :=
  {| conn_id := 0; conn_user_id := Some (u "15550001111:7@s.whatsapp.net") |}.
Definition now0 : jsstring := u "2024-05-01T10:00:00.000Z".
Definition always_resolves : send_op := fun _ _ _ => Resolved.
Definition always_rejects (text : jsstring) : send_op :=
  fun _ _ _ => Rejected {| message_of := text |}.
Definition req0 : request :=
  {| number := JStr (u "+1 (555) 123-4567"); message := JStr (u "Your code is 482913") |}.

End Gateway.

(** ** The connection manager *)

Module Manager.

(** What a timer runs when it expires: the arrow function armed by the
    [app.listen] callback (which calls [connectToWA]) or [connectToWA]
    itself. *)
Inductive callback :=
| StartConnection
| ConnectToWA.

(** A pending [setTimeout(callback, delay)], delay in milliseconds. *)
Record timer := { delay : N; callback_of : callback }.

(** The argument of the ["connection.update"] listener. *)
Record update := { connection : jsval; lastDisconnect : jsval; qr : jsval }.

(** The startup text [up]: the template literal runs over a line break and
    the indentation of the next line; U+2705 is the code unit 9989. *)
Definition up : jsstring := u "OTP-BOT " ++ [9989%N; 10%N] ++ u "        ".

(** The process, as far as the manager is concerned.
    - [sockInstance]: the global of the same name;
    - [timers]: the timers armed and not yet expired, oldest first;
    - [attempts]: the invocations of [connectToWA] suspended at an [await];
    - [sockets]: the sockets (by [conn_id]) whose listener is registered and
      that have not ended;
    - [made]: how many sockets [makeWASocket] has returned so far;
    - [outbox]: the calls to [sendMessage] made by the manager. *)
Record state := {
  sockInstance : option conn;
  timers : list timer;
  attempts : nat;
  sockets : list nat;
  made : nat;
  outbox : list send_call
}.

(** The state once the module is loaded: [let sockInstance = null]. *)
Definition loaded : state :=
  {| sockInstance := None; timers := []; attempts := 0;
     sockets := []; made := 0; outbox := [] |}.

(** [setTimeout(cb, ms)] *)
Definition setTimeout (cb : callback) (ms : N) (st : state) : state :=
  {| sockInstance := sockInstance st;
     timers := timers st ++ [ {| delay := ms; callback_of := cb |} ];
     attempts := attempts st;
     sockets := sockets st;
     made := made st;
     outbox := outbox st |}.

(** The callback of [app.listen]. *)
Definition on_listen (st : state) : state := setTimeout StartConnection 1000 st.

(** The state in which the server starts to take requests. *)
Definition boot : state := on_listen loaded.

(** [connectToWA] is entered and suspends at its first [await]. *)
Definition connectToWA_enter (st : state) : state :=
  {| sockInstance := sockInstance st;
     timers := timers st;
     attempts := S (attempts st);
     sockets := sockets st;
     made := made st;
     outbox := outbox st |}.

(** [connectToWA], the [catch] block: the attempt is over and a retry is
    armed. *)
Definition connectToWA_catch (st : state) : state :=
  setTimeout ConnectToWA 10000
    {| sockInstance := sockInstance st;
       timers := timers st;
       attempts := pred (attempts st);
       sockets := sockets st;
       made := made st;
       outbox := outbox st |}.

(** [connectToWA], the end of the [try] block: [makeWASocket] has returned
    [c] and the listeners are registered on it. *)
Definition connectToWA_return (c : conn) (st : state) : state :=
  {| sockInstance := sockInstance st;
     timers := timers st;
     attempts := pred (attempts st);
     sockets := sockets st ++ [conn_id c];
     made := S (made st);
     outbox := outbox st |}.

(** [sockInstance = conn] *)
Definition publish (c : conn) (st : state) : state :=
  {| sockInstance := Some c;
     timers := timers st;
     attempts := attempts st;
     sockets := sockets st;
     made := made st;
     outbox := outbox st |}.

(** The startup message: [conn.sendMessage(conn.user.id, { text: up })]
    inside its own [try]; reading [conn.user.id] throws when the user is
    not known, and whatever is thrown is only logged. *)
Definition send_startup (c : conn) (st : state) : state :=
  match conn_user_id c with
  | Some id =>
      {| sockInstance := sockInstance st;
         timers := timers st;
         attempts := attempts st;
         sockets := sockets st;
         made := made st;
         outbox := outbox st ++
           [ {| via := c; jid_of := id; content_of := JObj [ (u "text", JStr up) ] |} ] |}
  | None => st
  end.

(** The listener of ["connection.update"] registered on [c]. *)
Definition on_connection_update (c : conn) (upd : update) (st : state) : state :=
  if strict_eq_str (connection upd) (u "close") then
    setTimeout ConnectToWA 5000 st
  else if strict_eq_str (connection upd) (u "open") then
    send_startup c (publish c st)
  else st.

(** *** The event loop *)

(** What can happen to the manager.  The library is not part of the
    repository; its contract is the enabling condition of each event:
    - a timer expires only while it is pending;
    - an attempt ends, with an exception or with a socket, only while it is
      running, and the exception comes before the socket exists;
    - a socket signals updates only between its creation and its end, and
      ["close"] is the signal of its end. *)
Inductive event :=
| TimerFires (i : nat)
| ConnectFails
| ConnectSucceeds (c : conn)
| ConnectionUpdate (c : conn) (upd : update).

Fixpoint remove_nth {A} (i : nat) (l : list A) : list A :=
  match l, i with
  | [], _ => []
  | _ :: l', O => l'
  | x :: l', S i' => x :: remove_nth i' l'
  end.

Fixpoint remove_first (n : nat) (l : list nat) : list nat :=
  match l with
  | [] => []
  | m :: l' => if Nat.eqb n m then l' else m :: remove_first n l'
  end.

Definition with_timers (ts : list timer) (st : state) : state :=
  {| sockInstance := sockInstance st;
     timers := ts;
     attempts := attempts st;
     sockets := sockets st;
     made := made st;
     outbox := outbox st |}.

Definition with_sockets (ss : list nat) (st : state) : state :=
  {| sockInstance := sockInstance st;
     timers := timers st;
     attempts := attempts st;
     sockets := ss;
     made := made st;
     outbox := outbox st |}.

Definition exec (e : event) (st : state) : option state :=
  match e with
  | TimerFires i =>
      match nth_error (timers st) i with
      | Some _ => Some (connectToWA_enter (with_timers (remove_nth i (timers st)) st))
      | None => None
      end
  | ConnectFails =>
      match attempts st with
      | O => None
      | S _ => Some (connectToWA_catch st)
      end
  | ConnectSucceeds c =>
      match attempts st with
      | O => None
      | S _ => if Nat.eqb (conn_id c) (made st)
               then Some (connectToWA_return c st) else None
      end
  | ConnectionUpdate c upd =>
      if existsb (Nat.eqb (conn_id c)) (sockets st) then
        let st' := on_connection_update c upd st in
        if strict_eq_str (connection upd) (u "close")
        then Some (with_sockets (remove_first (conn_id c) (sockets st')) st')
        else Some st'
      else None
  end.

Fixpoint run (tr : list event) (st : state) : option state :=
  match tr with
  | [] => Some st
  | e :: tr' =>
      match exec e st with
      | Some st' => run tr' st'
      | None => None
      end
  end.

(** The two signals, with nothing else in the update. *)
Definition close_signal : update :=
  {| connection := JStr (u "close"); lastDisconnect := JUndefined; qr := JUndefined |}.
Definition open_signal : update :=
  {| connection := JStr (u "open"); lastDisconnect := JUndefined; qr := JUndefined |}.

(** An open signal: an update whose [connection] is ["open"]. *)
Definition is_open (e : event) : bool :=
  match e with
  | ConnectionUpdate _ upd => strict_eq_str (connection upd) (u "open")
  | _ => false
  end.

(** A close signal: an update whose [connection] is ["close"]. *)
Definition is_close (upd : update) : bool :=
  strict_eq_str (connection upd) (u "close").

(** [n] attempts in a row that end with an exception. *)
Fixpoint failures (n : nat) : list event :=
  match n with
  | O => []
  | S n' => TimerFires 0 :: ConnectFails :: failures n'
  end.

(** The timers armed by the two retry paths. *)
Definition reconnect_timer : timer := {| delay := 5000; callback_of := ConnectToWA |}.
Definition retry_timer : timer := {| delay := 10000; callback_of := ConnectToWA |}.

(** Whether a handle is published. *)
Definition published (st : state) : bool :=
  match sockInstance st with
  | Some _ => true
  | None => false
  end.

(** The supervising loop is in exactly one place: waiting for a timer, in
    an attempt, or listening to a socket. *)
Definition one_place (st : state) : Prop :=
  List.length (timers st) + attempts st + List.length (sockets st) = 1.

(** Sample data: a socket as the first attempt returns it, the trace of a
    first connection that opens, the same followed by the end of the
    socket, and the states they lead to. *)
Definition sock0 : conn :=
  {| conn_id := 0; conn_user_id := Some (u "15550001111:7@s.whatsapp.net") |}.
Definition startup_call : send_call :=
  {| via := sock0;
     jid_of := u "15550001111:7@s.whatsapp.net";
     content_of := JObj [ (u "text", JStr up) ] |}.
Definition tr_opened : list event :=
  [ TimerFires 0; ConnectSucceeds sock0; ConnectionUpdate sock0 open_signal ].
Definition st_opened : state :=
  {| sockInstance := Some sock0; timers := []; attempts := 0;
     sockets := [0]; made := 1; outbox := [startup_call] |}.
Definition tr_closed : list event :=
  tr_opened ++ [ ConnectionUpdate sock0 close_signal ].
Definition st_closed : state :=
  {| sockInstance := Some sock0; timers := [reconnect_timer]; attempts := 0;
     sockets := []; made := 1; outbox := [startup_call] |}.
Definition st_retrying : state :=
  {| sockInstance := None; timers := [retry_timer]; attempts := 0;
     sockets := []; made := 0; outbox := [] |}.

End Manager.

(** ** Start-up values and the error logger *)

Module Process.

(** [a || b]: the left operand when it is truthy, the right one otherwise. *)
Definition js_or (a b : jsval) : jsval := if truthy a then a else b.

(** [process.env.NAME]: a string, or [undefined] when the variable is not
    set. *)
Definition env_var (v : option jsstring) : jsval :=
  match v with
  | Some s => JStr s
  | None => JUndefined
  end.

(** [const PORT = process.env.PORT || 5000] *)
Definition PORT (env_port : option jsstring) : jsval :=
  js_or (env_var env_port) (JNum (Finite 5000)).

(** [err?.stack]: nothing for [undefined] and [null]; strings, numbers,
    booleans and arrays have no such property; an object has the one it
    holds, if any. *)
Definition opt_stack (err : jsval) : jsval :=
  match err with
  | JObj l => get_prop l (u "stack")
  | _ => JUndefined
  end.

(** [logError(context, err)], as the two arguments it hands to
    [console.error]; [time] is the reading of the clock. *)
Definition logError (time context : jsstring) (err : jsval) : list jsval :=
  [ JStr (u "[" ++ time ++ u "] [" ++ context ++ u "]");
    js_or (opt_stack err) err ].

(** Sample data: an [Error] with a stack, and one whose stack is empty. *)
Definition err_with_stack : jsval :=
  JObj [ (u "message", JStr (u "Connection Failure"));
         (u "stack", JStr (u "Error: Connection Failure at connectToWA")) ].
Definition err_without_stack : jsval :=
  JObj [ (u "message", JStr (u "Connection Failure")); (u "stack", JStr []) ].

End Process.

(** ** The endings of [POST /send-otp] *)

Module Endings.

Import Gateway.

Section Ending.

Variable send : send_op.
Variable now : jsstring.

(** All the ways the handler can end. *)
Inductive ending (sock : option conn) (req : request)
  : response * list send_call -> Prop :=
| Invalid_request :
    truthy (number req) = false \/ truthy (message req) = false ->
    ending sock req (res_status_json 400 (validation_body req), [])
| Not_connected :
    truthy (number req) = true -> truthy (message req) = true -> sock = None ->
    ending sock req (res_status_json 503 unavailable_body, [])
| Not_a_string (c : conn) :
    truthy (number req) = true -> truthy (message req) = true -> sock = Some c ->
    (forall s, number req <> JStr s) ->
    ending sock req (send_otp_catch now replace_type_error, [])
| Sent (c : conn) (s : jsstring) :
    number req = JStr s -> s <> [] -> truthy (message req) = true -> sock = Some c ->
    send c (filter is_digit s ++ u "@s.whatsapp.net")
         (JObj [ (u "text", message req) ]) = Resolved ->
    ending sock req
      (res_json (JObj [ (u "ok", JBool true);
                        (u "message", JStr (u "OTP sent successfully"));
                        (u "to", JStr (filter is_digit s));
                        (u "timestamp", JStr now) ]),
       [ {| via := c; jid_of := filter is_digit s ++ u "@s.whatsapp.net";
            content_of := JObj [ (u "text", message req) ] |} ])
| Send_failed (c : conn) (s : jsstring) (e : js_error) :
    number req = JStr s -> s <> [] -> truthy (message req) = true -> sock = Some c ->
    send c (filter is_digit s ++ u "@s.whatsapp.net")
         (JObj [ (u "text", message req) ]) = Rejected e ->
    ending sock req
      (send_otp_catch now e,
       [ {| via := c; jid_of := filter is_digit s ++ u "@s.whatsapp.net";
            content_of := JObj [ (u "text", message req) ] |} ]).

End Ending.

End Endings.

(** ** More sample data *)

Module Samples.

Import Gateway Manager.

(** The same recipient written two ways, a number without any digit, and
    the requests made of them. *)
Definition req_plain : request :=
  {| number := JStr (u "15551234567"); message := JStr (u "Your code is 482913") |}.
Definition req_letters : request :=
  {| number := JStr (u "call me"); message := JStr (u "Your code is 482913") |}.

(** A second socket, as the second successful attempt returns it (its user
    is not known yet), the trace of a reconnection up to its creation, and
    the same once it has opened. *)
Definition sock1 : conn :=
  {| conn_id := 1; conn_user_id := None |}.
Definition tr_reconnecting : list event :=
  tr_closed ++ [ TimerFires 0; ConnectSucceeds sock1 ].
Definition st_reconnecting : state :=
  {| sockInstance := Some sock0; timers := []; attempts := 0;
     sockets := [1]; made := 2; outbox := [startup_call] |}.
Definition tr_reopened : list event :=
  tr_reconnecting ++ [ ConnectionUpdate sock1 open_signal ].
Definition st_reopened : state :=
  {| sockInstance := Some sock1; timers := []; attempts := 0;
     sockets := [1]; made := 2; outbox := [startup_call] |}.

End Samples.

(** * Properties *)

(** ** Strings *)

Section StringFacts.

Lemma eqb_eq (a b : jsstring) : JsString.eqb a b = true <-> a = b.
Proof.
  revert b; induction a as [|x a IH]; intros [|y b]; simpl; split;
    try congruence; try reflexivity.
  - intros H. apply andb_true_iff in H as [Hx Hab].
    apply N.eqb_eq in Hx. apply IH in Hab. congruence.
  - intros H. injection H as -> ->.
    apply andb_true_iff. split; [apply N.eqb_refl | now apply IH].
Qed.

Lemma starts_with_prefix (s p : jsstring) :
  starts_with s p = true <-> exists b, s = p ++ b.
Proof.
  revert s; induction p as [|y p IH]; intros s; simpl.
  - split; [intros _; now exists s | intros _; now destruct s].
  - destruct s as [|x s]; simpl.
    + split; [discriminate | intros [b Hb]; discriminate].
    + rewrite andb_true_iff, N.eqb_eq, IH. split.
      * intros [-> [b ->]]. now exists b.
      * intros [b Hb]. injection Hb as -> ->. split; [reflexivity | now exists b].
Qed.

(** [includes] decides "contains". *)
Lemma includes_contains (s p : jsstring) :
  includes s p = true <-> contains s p.
Proof.
  unfold contains. induction s as [|x s IH].
  - change (includes [] p) with (starts_with [] p || false).
    rewrite orb_false_r, starts_with_prefix. split.
    + intros [b Hb]. now exists [], b.
    + intros [a [b H]]. destruct a; [now exists b | discriminate].
  - change (includes (x :: s) p) with (starts_with (x :: s) p || includes s p).
    rewrite orb_true_iff, starts_with_prefix, IH. split.
    + intros [[b Hb] | [a [b Hab]]].
      * now exists [], b.
      * exists (x :: a), b. simpl. now rewrite Hab.
    + intros [[|y a] [b H]].
      * left. now exists b.
      * right. injection H as -> ->. now exists a, b.
Qed.

Lemma not_includes_contains (s p : jsstring) :
  includes s p = false <-> ~ contains s p.
Proof.
  rewrite <- includes_contains. destruct (includes s p); split; congruence.
Qed.

(** The global replace keeps exactly the digits, in their order. *)
Lemma replace_non_digits_filter (s : jsstring) :
  replace_non_digits s = filter is_digit s.
Proof.
  induction s as [|c s IH]; simpl; [reflexivity|].
  destruct (is_digit c); simpl; now rewrite IH.
Qed.

Lemma truthy_string (s : jsstring) : truthy (JStr s) = true <-> s <> [].
Proof.
  destruct s; simpl; split; congruence.
Qed.

End StringFacts.

(** ** The gateway *)

Import Gateway.

(** The validation comes first: a falsy field ends the handler with the 400
    response, whatever the state of the connection. *)
Lemma send_otp_falsy_field (send : send_op) (now : jsstring)
    (sock : option conn) (req : request) :
  truthy (number req) = false \/ truthy (message req) = false ->
  send_otp send now sock req = (res_status_json 400 (validation_body req), []).
Proof.
  intros H. unfold send_otp, send_otp_try.
  assert (E : negb (truthy (number req)) || negb (truthy (message req)) = true).
  { destruct H as [-> | ->]; [reflexivity | apply orb_true_r]. }
  now rewrite E.
Qed.

(** Past the validation and with a socket published, a string number is
    stripped, suffixed and handed to the library exactly once. *)
Lemma send_otp_try_string (send : send_op) (now : jsstring)
    (sock : conn) (s : jsstring) (req : request) :
  number req = JStr s -> s <> [] -> truthy (message req) = true ->
  let jid := filter is_digit s ++ u "@s.whatsapp.net" in
  let content := JObj [ (u "text", message req) ] in
  let call := {| via := sock; jid_of := jid; content_of := content |} in
  send_otp_try send now (Some sock) req =
    match send sock jid content with
    | Rejected e => (Thrown e, [call])
    | Resolved =>
        (Responded (res_json (JObj
           [ (u "ok", JBool true);
             (u "message", JStr (u "OTP sent successfully"));
             (u "to", JStr (filter is_digit s));
             (u "timestamp", JStr now) ])), [call])
    end.
Proof.
  intros Hn Hs Hm. unfold send_otp_try.
  rewrite Hn, Hm. apply truthy_string in Hs. rewrite Hs.
  cbn [negb orb]. rewrite replace_non_digits_filter. reflexivity.
Qed.

(** The three branches of the classification, read through "contains". *)
Lemma classify_cases (e : js_error) :
  (contains (message_of e) (u "Not authorized") ->
     classify e = (401%N, u "WhatsApp not authenticated. Please scan QR code.")) /\
  (~ contains (message_of e) (u "Not authorized") ->
   contains (message_of e) (u "not registered") \/ contains (message_of e) (u "invalid") ->
     classify e =
       (400%N, u "Invalid phone number or number not registered on WhatsApp")) /\
  (~ contains (message_of e) (u "Not authorized") ->
   ~ contains (message_of e) (u "not registered") ->
   ~ contains (message_of e) (u "invalid") ->
     classify e = (500%N, message_of e)).
Proof.
  unfold classify, not_authorized, not_registered, invalid.
  repeat split.
  - intros H. apply includes_contains in H. now rewrite H.
  - intros Hna H. apply not_includes_contains in Hna. rewrite Hna.
    destruct H as [H | H]; apply includes_contains in H; rewrite H;
      [reflexivity | now rewrite orb_true_r].
  - intros Hna Hnr Hinv.
    apply not_includes_contains in Hna, Hnr, Hinv.
    now rewrite Hna, Hnr, Hinv.
Qed.

(** C4. A request to [/send-otp] whose [number] or [message] is absent or
    empty is answered with status 400 and the body
    [{error, received}], and the library's send operation is not called:
    the list of calls is empty. *)
Theorem send_otp_missing_field (send : send_op) (now : jsstring)
    (sock : option conn) (req : request) :
  absent_or_empty (number req) \/ absent_or_empty (message req) ->
  status (fst (send_otp send now sock req)) = 400%N /\
  payload (fst (send_otp send now sock req)) =
    JObj [ (u "error", JStr (u "number & message required"));
           (u "received", JObj [ (u "number", number req);
                                 (u "messageLength", opt_length (message req)) ]) ] /\
  snd (send_otp send now sock req) = [].
Proof.
  intros H.
  rewrite send_otp_falsy_field; [repeat split|].
  destruct H as [[-> | ->] | [-> | ->]]; auto.
Qed.

Lemma send_otp_missing_field_witness :
  status (fst (send_otp always_resolves now0 (Some c0)
                 {| number := JStr (u "15551234567"); message := JStr [] |})) = 400%N /\
  snd (send_otp always_resolves now0 (Some c0)
         {| number := JStr (u "15551234567"); message := JStr [] |}) = [].
Proof.
  destruct (send_otp_missing_field always_resolves now0 (Some c0)
              {| number := JStr (u "15551234567"); message := JStr [] |})
    as [Hs [_ Hc]].
  - right. right. reflexivity.
  - split; assumption.
Defined.

(** The connection gate, when [sockInstance] is still [null]: a request to
    [/send-otp] with both fields present (both pass the handler's presence
    test) is answered with status 503, and the send operation is not
    attempted, whatever else the body holds. *)
Theorem send_otp_no_handle (send : send_op) (now : jsstring) (req : request) :
  truthy (number req) = true ->
  truthy (message req) = true ->
  status (fst (send_otp send now None req)) = 503%N /\
  payload (fst (send_otp send now None req)) =
    JObj [ (u "error", JStr (u "WhatsApp not connected yet"));
           (u "message", JStr (u "Please wait for WhatsApp connection to establish")) ] /\
  snd (send_otp send now None req) = [].
Proof.
  intros Hn Hm. unfold send_otp, send_otp_try.
  rewrite Hn, Hm. cbn [negb orb fst snd]. repeat split.
Qed.

Lemma send_otp_no_handle_witness :
  status (fst (send_otp always_resolves now0 None req0)) = 503%N /\
  snd (send_otp always_resolves now0 None req0) = [].
Proof.
  destruct (send_otp_no_handle always_resolves now0 req0) as [Hs [_ Hc]].
  - reflexivity.
  - reflexivity.
  - split; assumption.
Defined.

(** C3. For a valid send request (a non-empty string [number], a [message],
    a published handle) the send operation is called once, on the published
    handle, with the address made of the digits of [number], in order,
    followed by ["@s.whatsapp.net"]; for ["+1 (555) 123-4567"] the address
    is ["15551234567@s.whatsapp.net"]. *)
Theorem send_otp_address (send : send_op) (now : jsstring)
    (sock : conn) (s : jsstring) (req : request) :
  number req = JStr s -> s <> [] -> truthy (message req) = true ->
  snd (send_otp send now (Some sock) req) =
    [ {| via := sock;
         jid_of := filter is_digit s ++ u "@s.whatsapp.net";
         content_of := JObj [ (u "text", message req) ] |} ] /\
  List.map jid_of
    (snd (send_otp send now (Some sock)
            {| number := JStr (u "+1 (555) 123-4567"); message := message req |})) =
    [ u "15551234567@s.whatsapp.net" ].
Proof.
  intros Hn Hs Hm. split.
  - unfold send_otp. rewrite (send_otp_try_string send now sock s req Hn Hs Hm).
    cbv zeta. now destruct (send _ _ _).
  - unfold send_otp.
    rewrite (send_otp_try_string send now sock (u "+1 (555) 123-4567")
               {| number := JStr (u "+1 (555) 123-4567"); message := message req |});
      [ | reflexivity | discriminate | exact Hm ].
    cbv zeta. now destruct (send _ _ _).
Qed.

Lemma send_otp_address_witness :
  List.map jid_of (snd (send_otp (always_rejects (u "timed out")) now0 (Some c0) req0)) =
    [ u "15551234567@s.whatsapp.net" ].
Proof.
  destruct (send_otp_address (always_rejects (u "timed out")) now0 c0
              (u "+1 (555) 123-4567") req0) as [_ H].
  - reflexivity.
  - discriminate.
  - reflexivity.
  - exact H.
Defined.

(** C7. When the send operation resolves for a valid send request, the
    response has status 200 and the body [{ok, message, to, timestamp}] with
    [ok] true, [to] the digits of [number] and [timestamp] the reading of
    the clock. *)
Theorem send_otp_success (send : send_op) (now : jsstring)
    (sock : conn) (s : jsstring) (req : request) :
  number req = JStr s -> s <> [] -> truthy (message req) = true ->
  send sock (filter is_digit s ++ u "@s.whatsapp.net")
       (JObj [ (u "text", message req) ]) = Resolved ->
  fst (send_otp send now (Some sock) req) =
    {| status := 200;
       payload := JObj [ (u "ok", JBool true);
                         (u "message", JStr (u "OTP sent successfully"));
                         (u "to", JStr (filter is_digit s));
                         (u "timestamp", JStr now) ] |}.
Proof.
  intros Hn Hs Hm Hsend. unfold send_otp.
  rewrite (send_otp_try_string send now sock s req Hn Hs Hm).
  cbv zeta. now rewrite Hsend.
Qed.

Lemma send_otp_success_witness :
  fst (send_otp always_resolves now0 (Some c0) req0) =
    {| status := 200;
       payload := JObj [ (u "ok", JBool true);
                         (u "message", JStr (u "OTP sent successfully"));
                         (u "to", JStr (u "15551234567"));
                         (u "timestamp", JStr now0) ] |}.
Proof.
  apply (send_otp_success always_resolves now0 c0 (u "+1 (555) 123-4567") req0).
  - reflexivity.
  - discriminate.
  - reflexivity.
  - reflexivity.
Defined.

(** When the send operation rejects, the [catch] block builds the
    response. *)
Lemma send_otp_rejected (send : send_op) (now : jsstring)
    (sock : conn) (s : jsstring) (req : request) (e : js_error) :
  number req = JStr s -> s <> [] -> truthy (message req) = true ->
  send sock (filter is_digit s ++ u "@s.whatsapp.net")
       (JObj [ (u "text", message req) ]) = Rejected e ->
  fst (send_otp send now (Some sock) req) = send_otp_catch now e.
Proof.
  intros Hn Hs Hm Hsend. unfold send_otp.
  rewrite (send_otp_try_string send now sock s req Hn Hs Hm).
  cbv zeta. now rewrite Hsend.
Qed.

Lemma send_otp_catch_classify (now : jsstring) (e : js_error) :
  status (send_otp_catch now e) = fst (classify e) /\
  field (payload (send_otp_catch now e)) (u "details") = JStr (snd (classify e)).
Proof.
  unfold send_otp_catch. destruct (classify e) as [code text]. split; reflexivity.
Qed.

(** C2, as stated, fails: the test is case-sensitive and the source looks
    for ["Not authorized"], so an error whose text is ["not authorized"] is
    answered with 500, not 401. *)
Lemma send_otp_status_lowercase_counterexample :
  contains (u "not authorized") (u "not authorized") /\
  status (fst (send_otp (always_rejects (u "not authorized")) now0 (Some c0) req0))
    = 500%N.
Proof.
  split.
  - exists [], []. reflexivity.
  - reflexivity.
Qed.

(** C2, amended.  For every error thrown by the send operation the status
    of the response is decided by the text of the error: 401 if it contains
    ["Not authorized"] (capital N), else 400 if it contains
    ["not registered"] or ["invalid"], and 500 otherwise. *)
Theorem send_otp_status_by_text (send : send_op) (now : jsstring)
    (sock : conn) (s : jsstring) (req : request) (e : js_error) :
  number req = JStr s -> s <> [] -> truthy (message req) = true ->
  send sock (filter is_digit s ++ u "@s.whatsapp.net")
       (JObj [ (u "text", message req) ]) = Rejected e ->
  (contains (message_of e) (u "Not authorized") ->
     status (fst (send_otp send now (Some sock) req)) = 401%N) /\
  (~ contains (message_of e) (u "Not authorized") ->
   contains (message_of e) (u "not registered") \/ contains (message_of e) (u "invalid") ->
     status (fst (send_otp send now (Some sock) req)) = 400%N) /\
  (~ contains (message_of e) (u "Not authorized") ->
   ~ contains (message_of e) (u "not registered") ->
   ~ contains (message_of e) (u "invalid") ->
     status (fst (send_otp send now (Some sock) req)) = 500%N).
Proof.
  intros Hn Hs Hm Hsend.
  rewrite (send_otp_rejected send now sock s req e Hn Hs Hm Hsend).
  destruct (send_otp_catch_classify now e) as [-> _].
  destruct (classify_cases e) as [H1 [H2 H3]].
  repeat split.
  - intros H. now rewrite (H1 H).
  - intros Ha Hb. now rewrite (H2 Ha Hb).
  - intros Ha Hb Hc. now rewrite (H3 Ha Hb Hc).
Qed.

Lemma send_otp_status_by_text_witness :
  status (fst (send_otp (always_rejects (u "Not authorized")) now0 (Some c0) req0))
    = 401%N.
Proof.
  destruct (send_otp_status_by_text (always_rejects (u "Not authorized")) now0 c0
              (u "+1 (555) 123-4567") req0 {| message_of := u "Not authorized" |})
    as [H _].
  - reflexivity.
  - discriminate.
  - reflexivity.
  - reflexivity.
  - apply H. exists [], []. reflexivity.
Defined.

(** C6, as stated, fails: for an error classified 400 (or 401) the
    [details] field holds a fixed text of the handler, not the text of the
    error. *)
Lemma send_otp_details_counterexample :
  status (fst (send_otp (always_rejects (u "number not registered")) now0 (Some c0) req0))
    = 400%N /\
  field (payload (fst (send_otp (always_rejects (u "number not registered"))
                         now0 (Some c0) req0))) (u "details")
    <> JStr (u "number not registered").
Proof.
  split.
  - reflexivity.
  - vm_compute. discriminate.
Qed.

(** C6, amended.  For every error thrown by the send operation the
    [details] field of the response goes with the classified status: with
    500 it is the text of the error, with 401 it is
    ["WhatsApp not authenticated. Please scan QR code."] and with 400 it is
    ["Invalid phone number or number not registered on WhatsApp"]. *)
Theorem send_otp_details (send : send_op) (now : jsstring)
    (sock : conn) (s : jsstring) (req : request) (e : js_error) :
  number req = JStr s -> s <> [] -> truthy (message req) = true ->
  send sock (filter is_digit s ++ u "@s.whatsapp.net")
       (JObj [ (u "text", message req) ]) = Rejected e ->
  let r := fst (send_otp send now (Some sock) req) in
  keys (payload r) = [ u "error"; u "details"; u "timestamp" ] /\
  (status r = 500%N /\ field (payload r) (u "details") = JStr (message_of e) \/
   status r = 401%N /\
     field (payload r) (u "details") =
       JStr (u "WhatsApp not authenticated. Please scan QR code.") \/
   status r = 400%N /\
     field (payload r) (u "details") =
       JStr (u "Invalid phone number or number not registered on WhatsApp")) /\
  (~ contains (message_of e) (u "Not authorized") ->
   ~ contains (message_of e) (u "not registered") ->
   ~ contains (message_of e) (u "invalid") ->
   status r = 500%N /\ field (payload r) (u "details") = JStr (message_of e)).
Proof.
  intros Hn Hs Hm Hsend r. subst r.
  rewrite (send_otp_rejected send now sock s req e Hn Hs Hm Hsend).
  destruct (send_otp_catch_classify now e) as [-> ->].
  destruct (classify_cases e) as [_ [_ H3]].
  split; [| split].
  - unfold send_otp_catch. now destruct (classify e).
  - unfold classify.
    destruct (includes (message_of e) not_authorized); [right; left; now split|].
    destruct (includes (message_of e) not_registered || includes (message_of e) invalid);
      [right; right; now split | left; now split].
  - intros Ha Hb Hc. now rewrite (H3 Ha Hb Hc).
Qed.

Lemma send_otp_details_witness :
  status (fst (send_otp (always_rejects (u "Connection Closed")) now0 (Some c0) req0))
    = 500%N /\
  field (payload (fst (send_otp (always_rejects (u "Connection Closed"))
                         now0 (Some c0) req0))) (u "details")
    = JStr (u "Connection Closed").
Proof.
  destruct (send_otp_details (always_rejects (u "Connection Closed")) now0 c0
              (u "+1 (555) 123-4567") req0 {| message_of := u "Connection Closed" |})
    as [_ [_ H]].
  - reflexivity.
  - discriminate.
  - reflexivity.
  - reflexivity.
  - apply H; apply not_includes_contains; reflexivity.
Defined.

(** C10, as stated, fails: a truthy [number] that is not a string does not
    reach the digit-stripping step when [message] is missing (the
    validation answers 400) or when no handle is published (503). *)
Lemma send_otp_non_string_counterexample :
  truthy (JNum (Finite 5)) = true /\
  status (fst (send_otp always_resolves now0 (Some c0)
                 {| number := JNum (Finite 5); message := JUndefined |})) = 400%N /\
  status (fst (send_otp always_resolves now0 None
                 {| number := JNum (Finite 5); message := JStr (u "482913") |})) = 503%N.
Proof.
  repeat split.
Qed.

(** C10, amended.  For a request whose [number] is truthy but not a string,
    whose [message] is truthy and which arrives while a handle is published,
    the digit-stripping step throws a [TypeError], the [catch] block answers
    with status 500 and the text of that error in [details], and the send
    operation is not called. *)
Theorem send_otp_non_string (send : send_op) (now : jsstring)
    (sock : conn) (req : request) :
  truthy (number req) = true ->
  (forall s, number req <> JStr s) ->
  truthy (message req) = true ->
  send_otp_try send now (Some sock) req = (Thrown replace_type_error, []) /\
  send_otp send now (Some sock) req =
    ({| status := 500;
        payload := JObj [ (u "error", JStr (u "Failed to send message"));
                          (u "details", JStr (u "number.replace is not a function"));
                          (u "timestamp", JStr now) ] |}, []).
Proof.
  intros Hn Hns Hm.
  assert (E : send_otp_try send now (Some sock) req = (Thrown replace_type_error, [])).
  { unfold send_otp_try. rewrite Hn, Hm. cbn [negb orb].
    destruct (number req) as [| | b | n | s | l | l] eqn:En; try reflexivity.
    now destruct (Hns s). }
  split; [exact E|].
  unfold send_otp. rewrite E. reflexivity.
Qed.

Lemma send_otp_non_string_witness :
  status (fst (send_otp always_resolves now0 (Some c0)
                 {| number := JNum (Finite 5); message := JStr (u "482913") |})) = 500%N /\
  snd (send_otp always_resolves now0 (Some c0)
         {| number := JNum (Finite 5); message := JStr (u "482913") |}) = [].
Proof.
  destruct (send_otp_non_string always_resolves now0 c0
              {| number := JNum (Finite 5); message := JStr (u "482913") |})
    as [_ H].
  - reflexivity.
  - intros s. discriminate.
  - reflexivity.
  - rewrite H. split; reflexivity.
Defined.

(** ** The connection manager *)

Import Manager.

Section EventLoop.

Lemma remove_nth_length {A} (l : list A) (i : nat) (x : A) :
  nth_error l i = Some x -> S (List.length (remove_nth i l)) = List.length l.
Proof.
  revert i; induction l as [|y l IH]; intros [|i]; simpl; try discriminate.
  - reflexivity.
  - intros H. now rewrite (IH i H).
Qed.

Lemma remove_first_length (n : nat) (l : list nat) :
  existsb (Nat.eqb n) l = true ->
  S (List.length (remove_first n l)) = List.length l.
Proof.
  induction l as [|m l IH]; simpl; [discriminate|].
  destruct (Nat.eqb n m); simpl; [reflexivity|].
  intros H. now rewrite (IH H).
Qed.

(** The listener, case by case. *)
Lemma on_close (c : conn) (upd : update) (st : state) :
  is_close upd = true ->
  on_connection_update c upd st = setTimeout ConnectToWA 5000 st.
Proof.
  unfold is_close, on_connection_update. now intros ->.
Qed.

Lemma on_update_shape (c : conn) (upd : update) (st : state) :
  is_close upd = false ->
  timers (on_connection_update c upd st) = timers st /\
  attempts (on_connection_update c upd st) = attempts st /\
  sockets (on_connection_update c upd st) = sockets st.
Proof.
  unfold is_close, on_connection_update. intros ->.
  destruct (strict_eq_str (connection upd) (u "open")); [|auto].
  unfold send_startup. destruct (conn_user_id c); auto.
Qed.

(** The two branches of the listener exclude each other. *)
Lemma close_is_not_open (v : jsval) :
  strict_eq_str v (u "close") = true -> strict_eq_str v (u "open") = false.
Proof.
  destruct v; simpl; try discriminate.
  intros H. apply eqb_eq in H. now subst.
Qed.

Lemma on_update_published (c : conn) (upd : update) (st : state) :
  published (on_connection_update c upd st)
  = published st || is_open (ConnectionUpdate c upd).
Proof.
  unfold on_connection_update, is_open.
  destruct (strict_eq_str (connection upd) (u "close")) eqn:Ec.
  - rewrite (close_is_not_open _ Ec). now rewrite orb_false_r.
  - destruct (strict_eq_str (connection upd) (u "open")).
    + unfold send_startup. destruct (conn_user_id c); now rewrite orb_true_r.
    + now rewrite orb_false_r.
Qed.

(** One event keeps the loop in exactly one place. *)
Lemma exec_one_place (e : event) (st st' : state) :
  exec e st = Some st' -> one_place st -> one_place st'.
Proof.
  unfold one_place. destruct e as [i | | c | c upd]; simpl.
  - destruct (nth_error (timers st) i) eqn:E; [|discriminate].
    intros [= <-] H. simpl. apply remove_nth_length in E. lia.
  - destruct (attempts st) eqn:E; [discriminate|].
    intros [= <-] H. simpl. rewrite E, length_app. simpl. lia.
  - destruct (attempts st) eqn:E; [discriminate|].
    destruct (Nat.eqb (conn_id c) (made st)); [|discriminate].
    intros [= <-] H. simpl. rewrite E, length_app. simpl. lia.
  - destruct (existsb (Nat.eqb (conn_id c)) (sockets st)) eqn:E; [|discriminate].
    fold (is_close upd). destruct (is_close upd) eqn:Ec.
    + intros [= <-] H. rewrite (on_close c upd st Ec). simpl.
      apply remove_first_length in E. rewrite length_app. simpl. lia.
    + intros [= <-] H.
      destruct (on_update_shape c upd st Ec) as [-> [-> ->]]. exact H.
Qed.

Lemma exec_published (e : event) (st st' : state) :
  exec e st = Some st' -> published st' = published st || is_open e.
Proof.
  destruct e as [i | | c | c upd]; [simpl | simpl | simpl | cbn [exec]].
  - destruct (nth_error (timers st) i); [|discriminate].
    intros [= <-]. now rewrite orb_false_r.
  - destruct (attempts st); [discriminate|].
    intros [= <-]. now rewrite orb_false_r.
  - destruct (attempts st); [discriminate|].
    destruct (Nat.eqb (conn_id c) (made st)); [|discriminate].
    intros [= <-]. now rewrite orb_false_r.
  - destruct (existsb (Nat.eqb (conn_id c)) (sockets st)); [|discriminate].
    rewrite <- (on_update_published c upd st).
    destruct (strict_eq_str (connection upd) (u "close"));
      intros [= <-]; reflexivity.
Qed.

Lemma run_one_place (tr : list event) (st st' : state) :
  run tr st = Some st' -> one_place st -> one_place st'.
Proof.
  revert st; induction tr as [|e tr IH]; simpl; intros st.
  - now intros [= <-].
  - destruct (exec e st) as [st1|] eqn:E; [|discriminate].
    intros Hrun Hst. apply (IH st1 Hrun). exact (exec_one_place e st st1 E Hst).
Qed.

Lemma run_published (tr : list event) (st st' : state) :
  run tr st = Some st' -> published st' = published st || existsb is_open tr.
Proof.
  revert st; induction tr as [|e tr IH]; simpl; intros st.
  - intros [= <-]. now rewrite orb_false_r.
  - destruct (exec e st) as [st1|] eqn:E; [|discriminate].
    intros Hrun. rewrite (IH st1 Hrun), (exec_published e st st1 E).
    now rewrite orb_assoc.
Qed.

Lemma boot_one_place : one_place boot.
Proof. reflexivity. Qed.

(** However many attempts have failed, the next failure arms the same
    retry. *)
Lemma run_failures (n : nat) : run (failures n) st_retrying = Some st_retrying.
Proof.
  induction n as [|n IH]; [reflexivity|].
  change (run (failures (S n)) st_retrying) with (run (failures n) st_retrying).
  exact IH.
Qed.

End EventLoop.

(** C8. In every state the manager can reach, [GET /] answers with status
    200 and an object with the fields [status], [service], [whatsapp] and
    [timestamp], in this order; [status] and [service] are constants,
    [timestamp] is the reading of the clock, and [whatsapp] is
    ["connecting"] as long as no open signal has been handled and
    ["connected"] once one has. *)
Theorem health_report (now : jsstring) (tr : list event) (st : state) :
  run tr boot = Some st ->
  let r := health now (sockInstance st) in
  status r = 200%N /\
  keys (payload r) = [ u "status"; u "service"; u "whatsapp"; u "timestamp" ] /\
  field (payload r) (u "status") = JStr (u "online") /\
  field (payload r) (u "service") = JStr (u "XPROVerce WhatsApp OTP Server") /\
  field (payload r) (u "timestamp") = JStr now /\
  (existsb is_open tr = false ->
     field (payload r) (u "whatsapp") = JStr (u "connecting")) /\
  (existsb is_open tr = true ->
     field (payload r) (u "whatsapp") = JStr (u "connected")).
Proof.
  intros Hrun r. subst r.
  pose proof (run_published tr boot st Hrun) as Hp.
  change (published boot) with false in Hp. rewrite orb_false_l in Hp.
  unfold published in Hp.
  destruct (sockInstance st) as [c|]; repeat split; try reflexivity;
    intros H; rewrite H in Hp; discriminate.
Qed.

Lemma health_report_witness :
  field (payload (health now0 (sockInstance st_opened))) (u "whatsapp")
    = JStr (u "connected") /\
  field (payload (health now0 (sockInstance boot))) (u "whatsapp")
    = JStr (u "connecting").
Proof.
  split.
  - destruct (health_report now0 tr_opened st_opened) as [_ [_ [_ [_ [_ [_ H]]]]]].
    + reflexivity.
    + apply H. reflexivity.
  - destruct (health_report now0 [] boot) as [_ [_ [_ [_ [_ [H _]]]]]].
    + reflexivity.
    + apply H. reflexivity.
Defined.

(** C9. In every state the manager can reach: a close signal arms one
    timer for [connectToWA], with a delay of 5000 ms, and it is then the
    only timer pending; an attempt that throws arms one timer for
    [connectToWA], with a delay of 10000 ms, and it is then the only timer
    pending; the delays are constants of the handlers, whatever the state;
    the loop is always in exactly one place (a pending timer, a running
    attempt or a live socket), so that at most one attempt is pending and
    the loop never stops; and after any number of failed attempts in a row
    the same 10000 ms retry is pending. *)
Theorem reconnect_schedule (tr : list event) (st : state) :
  run tr boot = Some st ->
  (forall c upd st0, is_close upd = true ->
     timers (on_connection_update c upd st0) = timers st0 ++ [reconnect_timer]) /\
  (forall st0, timers (connectToWA_catch st0) = timers st0 ++ [retry_timer]) /\
  (forall c upd st', is_close upd = true ->
     exec (ConnectionUpdate c upd) st = Some st' ->
     timers st' = [ {| delay := 5000; callback_of := ConnectToWA |} ]) /\
  (forall st', exec ConnectFails st = Some st' ->
     timers st' = [ {| delay := 10000; callback_of := ConnectToWA |} ]) /\
  List.length (timers st) <= 1 /\
  List.length (timers st) + attempts st + List.length (sockets st) = 1 /\
  (forall n, exists st_n,
     run (failures (S n)) boot = Some st_n /\
     timers st_n = [ {| delay := 10000; callback_of := ConnectToWA |} ]).
Proof.
  intros Hrun.
  pose proof (run_one_place tr boot st Hrun boot_one_place) as Hone.
  unfold one_place in Hone.
  repeat split.
  - intros c upd st0 Hc. now rewrite (on_close c upd st0 Hc).
  - intros c upd st' Hc. cbn [exec].
    destruct (existsb (Nat.eqb (conn_id c)) (sockets st)) eqn:E; [|discriminate].
    fold (is_close upd). rewrite Hc, (on_close c upd st Hc).
    intros [= <-]. cbn.
    destruct (sockets st) as [|k ks]; [discriminate|].
    destruct (timers st); [reflexivity | simpl in Hone; lia].
  - intros st'. cbn [exec].
    destruct (attempts st) eqn:E; [discriminate|].
    intros [= <-]. cbn.
    destruct (timers st); [reflexivity | simpl in Hone; lia].
  - lia.
  - exact Hone.
  - intros n. exists st_retrying. split; [|reflexivity].
    change (run (failures (S n)) boot) with (run (failures n) st_retrying).
    apply run_failures.
Qed.

Lemma reconnect_schedule_witness :
  run tr_opened boot = Some st_opened /\
  exec (ConnectionUpdate sock0 close_signal) st_opened = Some st_closed /\
  timers st_closed = [ {| delay := 5000; callback_of := ConnectToWA |} ] /\
  List.length (timers st_opened) <= 1.
Proof.
  destruct (reconnect_schedule tr_opened st_opened) as [_ [_ [H [_ [Hle _]]]]].
  - reflexivity.
  - split; [reflexivity|]. split; [reflexivity|]. split.
    + apply (H sock0 close_signal st_closed); reflexivity.
    + exact Hle.
Defined.

(** The close branch of the listener arms the timer and nothing else: the
    published handle is the one it was. *)
Lemma on_close_keeps_handle (c : conn) (upd : update) (st : state) :
  is_close upd = true ->
  sockInstance (on_connection_update c upd st) = sockInstance st.
Proof.
  intros Hc. now rewrite (on_close c upd st Hc).
Qed.

(** C1, on the code: after a connection that opened has signalled its
    close, the handle of the ended socket is still published while the
    5000 ms reconnect timer is pending, [GET /] still reports
    ["connected"], and a valid request to [/send-otp] is not answered with
    503: the send operation is called on the ended socket. *)
Theorem close_leaves_handle_published :
  run tr_closed boot = Some st_closed /\
  sockInstance st_closed = Some sock0 /\
  timers st_closed = [ {| delay := 5000; callback_of := ConnectToWA |} ] /\
  sockets st_closed = [] /\
  field (payload (health now0 (sockInstance st_closed))) (u "whatsapp")
    = JStr (u "connected") /\
  status (fst (send_otp always_resolves now0 (sockInstance st_closed) req0)) = 200%N /\
  snd (send_otp always_resolves now0 (sockInstance st_closed) req0) =
    [ {| via := sock0;
         jid_of := u "15551234567@s.whatsapp.net";
         content_of := JObj [ (u "text", JStr (u "Your code is 482913")) ] |} ].
Proof.
  repeat split.
Qed.

(** ** The gateway, case by case *)

Import Endings Samples.

Section SendOtpCases.

Variable send : send_op.
Variable now : jsstring.

Lemma send_otp_unavailable (req : request) :
  truthy (number req) = true -> truthy (message req) = true ->
  send_otp send now None req = (res_status_json 503 unavailable_body, []).
Proof.
  intros Hn Hm. unfold send_otp, send_otp_try. now rewrite Hn, Hm.
Qed.

Lemma send_otp_type_error (c : conn) (req : request) :
  truthy (number req) = true -> truthy (message req) = true ->
  (forall s, number req <> JStr s) ->
  send_otp send now (Some c) req = (send_otp_catch now replace_type_error, []).
Proof.
  intros Hn Hm Hs. unfold send_otp, send_otp_try. rewrite Hn, Hm. cbn [negb orb].
  destruct (number req) as [| | b | n | s | l | l]; try reflexivity.
  now destruct (Hs s).
Qed.

Lemma send_otp_string (c : conn) (s : jsstring) (req : request) :
  number req = JStr s -> s <> [] -> truthy (message req) = true ->
  send_otp send now (Some c) req =
    let jid := filter is_digit s ++ u "@s.whatsapp.net" in
    let content := JObj [ (u "text", message req) ] in
    let call := {| via := c; jid_of := jid; content_of := content |} in
    match send c jid content with
    | Resolved =>
        (res_json (JObj [ (u "ok", JBool true);
                          (u "message", JStr (u "OTP sent successfully"));
                          (u "to", JStr (filter is_digit s));
                          (u "timestamp", JStr now) ]), [call])
    | Rejected e => (send_otp_catch now e, [call])
    end.
Proof.
  intros Hn Hs Hm. unfold send_otp.
  rewrite (send_otp_try_string send now c s req Hn Hs Hm).
  cbv zeta. now destruct (send _ _ _).
Qed.

(** The [catch] block answers 401, 400 or 500 and nothing else. *)
Lemma catch_status (e : js_error) :
  status (send_otp_catch now e) = 401%N \/
  status (send_otp_catch now e) = 400%N \/
  status (send_otp_catch now e) = 500%N.
Proof.
  destruct (send_otp_catch_classify now e) as [-> _]. unfold classify.
  destruct (includes _ not_authorized); [now left|].
  destruct (_ || _); auto.
Qed.

(** Whether [number] is a string is decidable on the value. *)
Lemma string_or_not (v : jsval) :
  (exists s, v = JStr s) \/ (forall s, v <> JStr s).
Proof.
  destruct v; try (right; intros s'; discriminate). left. now eexists.
Qed.

Lemma send_otp_ending (sock : option conn) (req : request) :
  ending send now sock req (send_otp send now sock req).
Proof.
  destruct (truthy (number req)) eqn:Hn.
  2:{ rewrite send_otp_falsy_field by now left. apply Invalid_request. now left. }
  destruct (truthy (message req)) eqn:Hm.
  2:{ rewrite send_otp_falsy_field by now right. apply Invalid_request. now right. }
  destruct sock as [c|].
  2:{ rewrite send_otp_unavailable by assumption. now apply Not_connected. }
  destruct (string_or_not (number req)) as [[s Hs] | Hs].
  - assert (Hne : s <> []) by (apply truthy_string; now rewrite <- Hs).
    rewrite (send_otp_string c s req Hs Hne Hm). cbv zeta.
    destruct (send c _ _) eqn:E.
    + now apply (Sent send now (Some c) req c s).
    + now apply (Send_failed send now (Some c) req c s e).
  - rewrite send_otp_type_error by assumption. now apply (Not_a_string send now (Some c) req c).
Qed.

End SendOtpCases.

Ltac endings E :=
  destruct E as [ Hf | Hn Hm Hs | c Hn Hm Hs Hns
                | c s Hn Hne Hm Hs Hr | c s e Hn Hne Hm Hs Hr ];
  cbn [fst snd status payload res_status_json res_json].

Ltac string_is_truthy Hn Hne :=
  rewrite Hn; apply truthy_string; exact Hne.

Section SendOtpFacts.

Variable send : send_op.
Variable now : jsstring.

Lemma catch_keys (e : js_error) :
  keys (payload (send_otp_catch now e)) = [ u "error"; u "details"; u "timestamp" ].
Proof.
  unfold send_otp_catch. now destruct (classify e).
Qed.

Lemma filter_digits_all (s : jsstring) :
  Forall (fun ch => is_digit ch = true) (filter is_digit s).
Proof.
  apply Forall_forall. intros ch H. now apply filter_In in H.
Qed.

Lemma filter_no_digit (s : jsstring) :
  (forall ch, In ch s -> is_digit ch = false) -> filter is_digit s = [].
Proof.
  induction s as [|ch s IH]; intros H; [reflexivity|]. simpl.
  rewrite (H ch) by now left.
  apply IH. intros ch' Hin. apply H. now right.
Qed.

Lemma filter_digits_again (s : jsstring) :
  filter is_digit (filter is_digit s) = filter is_digit s.
Proof.
  induction s as [|ch s IH]; [reflexivity|]. simpl.
  destruct (is_digit ch) eqn:E; [|exact IH].
  simpl. now rewrite E, IH.
Qed.

(** 503 is the answer of the connection gate and of nothing else. *)
Lemma status_503_iff (sock : option conn) (req : request) :
  status (fst (send_otp send now sock req)) = 503%N <->
  truthy (number req) = true /\ truthy (message req) = true /\ sock = None.
Proof.
  endings (send_otp_ending send now sock req).
  - split; [discriminate|]. intros [Hn [Hm _]]. destruct Hf; congruence.
  - now split.
  - split; [|intros [_ [_ H]]; congruence].
    intros H. destruct (catch_status now replace_type_error) as [E | [E | E]];
      rewrite E in H; discriminate.
  - split; [discriminate|]. intros [_ [_ H]]; congruence.
  - split; [|intros [_ [_ H]]; congruence].
    intros H. destruct (catch_status now e) as [E | [E | E]];
      rewrite E in H; discriminate.
Qed.

End SendOtpFacts.

(** X1. The table of [POST /send-otp].  The status is one of 200, 400, 401,
    500 and 503.  It is 503 exactly when both fields are truthy and no
    handle is published; it is 200 exactly when a handle is published,
    [number] is a non-empty string, [message] is truthy and the send
    operation resolves; and the body is the [{error, received}] of the
    validation exactly when a field is falsy. *)
Theorem send_otp_status_table (send : send_op) (now : jsstring)
    (sock : option conn) (req : request) :
  let r := fst (send_otp send now sock req) in
  (status r = 200%N \/ status r = 400%N \/ status r = 401%N \/
   status r = 500%N \/ status r = 503%N) /\
  (status r = 503%N <->
     truthy (number req) = true /\ truthy (message req) = true /\ sock = None) /\
  (status r = 200%N <->
     exists c s, sock = Some c /\ number req = JStr s /\ s <> [] /\
       truthy (message req) = true /\
       send c (filter is_digit s ++ u "@s.whatsapp.net")
            (JObj [ (u "text", message req) ]) = Resolved) /\
  (keys (payload r) = [ u "error"; u "received" ] <->
     truthy (number req) = false \/ truthy (message req) = false).
Proof.
  intros r. subst r. split; [|split; [apply status_503_iff|]].
  - endings (send_otp_ending send now sock req); auto 8.
    destruct (catch_status now e) as [E | [E | E]]; auto 8.
  - endings (send_otp_ending send now sock req).
    + split; split.
      * discriminate.
      * intros [c [s [_ [Hn [Hne [Hm _]]]]]].
        assert (truthy (number req) = true) by string_is_truthy Hn Hne.
        destruct Hf; congruence.
      * intros _. exact Hf.
      * reflexivity.
    + split; split.
      * discriminate.
      * intros [c [s [H _]]]. congruence.
      * discriminate.
      * intros [H | H]; congruence.
    + split; split.
      * intros H. destruct (catch_status now replace_type_error) as [E | [E | E]];
          rewrite E in H; discriminate.
      * intros [c' [s [_ [Hn' _]]]]. now destruct (Hns s).
      * rewrite catch_keys. discriminate.
      * intros [H | H]; congruence.
    + split; split.
      * intros _. now exists c, s.
      * reflexivity.
      * discriminate.
      * assert (truthy (number req) = true) by string_is_truthy Hn Hne.
        intros [H' | H']; congruence.
    + split; split.
      * intros H. destruct (catch_status now e) as [E | [E | E]];
          rewrite E in H; discriminate.
      * intros [c' [s' [Hs' [Hn' [_ [_ Hr']]]]]].
        assert (c' = c) by congruence. assert (s' = s) by congruence. subst.
        congruence.
      * rewrite catch_keys. discriminate.
      * assert (truthy (number req) = true) by string_is_truthy Hn Hne.
        intros [H' | H']; congruence.
Qed.

(** X2. [POST /send-otp] calls the send operation at most once, and it does
    so exactly when a handle is published, [number] is a non-empty string
    and [message] is truthy.  The call goes through the published handle,
    carries [message] unchanged under [text], and its address is a run of
    digits (those of [number]) followed by ["@s.whatsapp.net"]. *)
Theorem send_otp_calls (send : send_op) (now : jsstring)
    (sock : option conn) (req : request) :
  let calls := snd (send_otp send now sock req) in
  List.length calls <= 1 /\
  (calls <> [] <->
     exists c s, sock = Some c /\ number req = JStr s /\ s <> [] /\
       truthy (message req) = true) /\
  Forall (fun call =>
            sock = Some (via call) /\
            content_of call = JObj [ (u "text", message req) ] /\
            exists d, jid_of call = d ++ u "@s.whatsapp.net" /\
              Forall (fun ch => is_digit ch = true) d /\
              exists s, number req = JStr s /\ d = filter is_digit s) calls.
Proof.
  intros calls. subst calls.
  endings (send_otp_ending send now sock req).
  - split; [auto|]. split; [|constructor]. split; [congruence|].
    intros [c [s [_ [Hn [Hne Hm]]]]].
    assert (truthy (number req) = true) by string_is_truthy Hn Hne.
    destruct Hf; congruence.
  - split; [auto|]. split; [|constructor]. split; [congruence|].
    intros [c [s [H _]]]. congruence.
  - split; [auto|]. split; [|constructor]. split; [congruence|].
    intros [c' [s [_ [Hn' _]]]]. now destruct (Hns s).
  - split; [auto|]. split.
    + split; [|discriminate]. intros _. now exists c, s.
    + constructor; [|constructor]. cbn [via content_of jid_of].
      split; [exact Hs|]. split; [reflexivity|].
      exists (filter is_digit s). split; [reflexivity|].
      split; [apply filter_digits_all|]. now exists s.
  - split; [auto|]. split.
    + split; [|discriminate]. intros _. now exists c, s.
    + constructor; [|constructor]. cbn [via content_of jid_of].
      split; [exact Hs|]. split; [reflexivity|].
      exists (filter is_digit s). split; [reflexivity|].
      split; [apply filter_digits_all|]. now exists s.
Qed.

(** X3. The handler reads [number] only through its digits: two requests
    with the same truthy [message] whose [number]s are non-empty strings
    with the same digits get the same response and cause the same call,
    whatever the state of the connection. *)
Theorem send_otp_digits_only (send : send_op) (now : jsstring)
    (sock : option conn) (s1 s2 : jsstring) (req1 req2 : request) :
  number req1 = JStr s1 -> number req2 = JStr s2 ->
  s1 <> [] -> s2 <> [] ->
  filter is_digit s1 = filter is_digit s2 ->
  message req1 = message req2 ->
  truthy (message req1) = true ->
  send_otp send now sock req1 = send_otp send now sock req2.
Proof.
  intros H1 H2 Hne1 Hne2 Hd Hmsg Hm.
  assert (Hm2 : truthy (message req2) = true) by now rewrite <- Hmsg.
  destruct sock as [c|].
  - rewrite (send_otp_string send now c s1 req1 H1 Hne1 Hm).
    rewrite (send_otp_string send now c s2 req2 H2 Hne2 Hm2).
    now rewrite Hd, Hmsg.
  - rewrite !send_otp_unavailable; try assumption; [reflexivity | |].
    + string_is_truthy H2 Hne2.
    + string_is_truthy H1 Hne1.
Qed.

Lemma send_otp_digits_only_witness :
  send_otp always_resolves now0 (Some c0) req0
  = send_otp always_resolves now0 (Some c0) req_plain.
Proof.
  apply (send_otp_digits_only always_resolves now0 (Some c0)
           (u "+1 (555) 123-4567") (u "15551234567") req0 req_plain).
  - reflexivity.
  - reflexivity.
  - discriminate.
  - discriminate.
  - reflexivity.
  - reflexivity.
  - reflexivity.
Defined.

(** X4. The [to] of a success can be sent back as [number]: when [number]
    is a string with at least one digit and [message] is truthy, the
    request whose [number] is the stripped one gets the same response and
    causes the same call as the original. *)
Theorem send_otp_resubmit (send : send_op) (now : jsstring)
    (sock : option conn) (s : jsstring) (req : request) :
  number req = JStr s ->
  replace_non_digits s <> [] ->
  truthy (message req) = true ->
  send_otp send now sock
    {| number := JStr (replace_non_digits s); message := message req |}
  = send_otp send now sock req.
Proof.
  intros Hn Hd Hm.
  assert (Hne : s <> []) by (intros ->; now apply Hd).
  destruct sock as [c|].
  - rewrite (send_otp_string send now c s req Hn Hne Hm).
    rewrite (send_otp_string send now c (replace_non_digits s)
               {| number := JStr (replace_non_digits s); message := message req |}
               eq_refl Hd Hm).
    cbn [message]. rewrite (replace_non_digits_filter s).
    now rewrite (filter_digits_again s).
  - rewrite !send_otp_unavailable; try assumption; [reflexivity | |].
    + string_is_truthy Hn Hne.
    + cbn [number]. now apply truthy_string.
Qed.

Lemma send_otp_resubmit_witness :
  send_otp always_resolves now0 (Some c0) req_plain
  = send_otp always_resolves now0 (Some c0) req0.
Proof.
  apply (send_otp_resubmit always_resolves now0 (Some c0) (u "+1 (555) 123-4567") req0).
  - reflexivity.
  - discriminate.
  - reflexivity.
Defined.

(** X5. A [number] that is a non-empty string without any digit passes the
    validation: with a handle published and a truthy [message] the send
    operation is called with the bare address ["@s.whatsapp.net"], and when
    it resolves the response is 200 with an empty [to]. *)
Theorem send_otp_no_digit (send : send_op) (now : jsstring)
    (c : conn) (s : jsstring) (req : request) :
  number req = JStr s -> s <> [] ->
  (forall ch, In ch s -> is_digit ch = false) ->
  truthy (message req) = true ->
  snd (send_otp send now (Some c) req) =
    [ {| via := c; jid_of := u "@s.whatsapp.net";
         content_of := JObj [ (u "text", message req) ] |} ] /\
  (send c (u "@s.whatsapp.net") (JObj [ (u "text", message req) ]) = Resolved ->
   status (fst (send_otp send now (Some c) req)) = 200%N /\
   field (payload (fst (send_otp send now (Some c) req))) (u "to") = JStr []).
Proof.
  intros Hn Hne Hnd Hm.
  rewrite (send_otp_string send now c s req Hn Hne Hm).
  rewrite (filter_no_digit s Hnd). cbv zeta. cbn [app].
  split.
  - now destruct (send _ _ _).
  - intros ->. split; reflexivity.
Qed.

Lemma send_otp_no_digit_witness :
  snd (send_otp always_resolves now0 (Some c0) req_letters) =
    [ {| via := c0; jid_of := u "@s.whatsapp.net";
         content_of := JObj [ (u "text", JStr (u "Your code is 482913")) ] |} ] /\
  field (payload (fst (send_otp always_resolves now0 (Some c0) req_letters))) (u "to")
    = JStr [].
Proof.
  destruct (send_otp_no_digit always_resolves now0 c0 (u "call me") req_letters)
    as [Hc Hr].
  - reflexivity.
  - discriminate.
  - intros ch Hin. vm_compute in Hin.
    repeat (destruct Hin as [<- | Hin]; [reflexivity|]). contradiction.
  - reflexivity.
  - split; [exact Hc|]. now apply Hr.
Defined.

(** X6. [GET /] and the connection gate of [POST /send-otp] read the same
    global: for a request that passes the validation, the health check
    reports ["connecting"] exactly when the request is answered 503. *)
Theorem health_predicts_gate (send : send_op) (now now' : jsstring)
    (sock : option conn) (req : request) :
  truthy (number req) = true -> truthy (message req) = true ->
  (field (payload (health now' sock)) (u "whatsapp") = JStr (u "connecting") <->
   status (fst (send_otp send now sock req)) = 503%N).
Proof.
  intros Hn Hm. rewrite status_503_iff. destruct sock as [c|]; split.
  - intros H. vm_compute in H. discriminate.
  - intros [_ [_ H]]. discriminate.
  - auto.
  - reflexivity.
Qed.

Lemma health_predicts_gate_witness :
  field (payload (health now0 None)) (u "whatsapp") = JStr (u "connecting") <->
  status (fst (send_otp always_resolves now0 None req0)) = 503%N.
Proof.
  apply (health_predicts_gate always_resolves now0 now0 None req0); reflexivity.
Defined.

(** ** The handle over time *)

Section HandleOverTime.

Lemma run_app (tr1 tr2 : list event) (st : state) :
  run (tr1 ++ tr2) st =
    match run tr1 st with
    | Some st1 => run tr2 st1
    | None => None
    end.
Proof.
  revert st; induction tr1 as [|e tr1 IH]; intros st; simpl; [reflexivity|].
  destruct (exec e st); [apply IH | reflexivity].
Qed.

(** Only an open signal writes the global. *)
Lemma exec_keeps_handle (e : event) (st st' : state) :
  exec e st = Some st' -> is_open e = false -> sockInstance st' = sockInstance st.
Proof.
  destruct e as [i | | c | c upd]; cbn [exec is_open].
  - destruct (nth_error (timers st) i); [|discriminate]. now intros [= <-].
  - destruct (attempts st); [discriminate|]. now intros [= <-].
  - destruct (attempts st); [discriminate|].
    destruct (Nat.eqb (conn_id c) (made st)); [|discriminate]. now intros [= <-].
  - destruct (existsb (Nat.eqb (conn_id c)) (sockets st)); [|discriminate].
    unfold on_connection_update.
    destruct (strict_eq_str (connection upd) (u "close"));
      intros [= <-] Ho; [reflexivity|]. now rewrite Ho.
Qed.

Lemma run_keeps_handle (tr : list event) (st st' : state) :
  run tr st = Some st' -> existsb is_open tr = false ->
  sockInstance st' = sockInstance st.
Proof.
  revert st; induction tr as [|e tr IH]; simpl; intros st.
  - now intros [= <-].
  - destruct (exec e st) as [st1|] eqn:E; [|discriminate].
    intros Hrun Ho. apply orb_false_iff in Ho as [Ho1 Ho2].
    rewrite (IH st1 Hrun Ho2). exact (exec_keeps_handle e st st1 E Ho1).
Qed.

(** An open signal publishes the socket it comes from. *)
Lemma exec_open_publishes (c : conn) (upd : update) (st st' : state) :
  exec (ConnectionUpdate c upd) st = Some st' ->
  is_open (ConnectionUpdate c upd) = true ->
  sockInstance st' = Some c.
Proof.
  cbn [exec is_open]. intros H Ho.
  destruct (existsb (Nat.eqb (conn_id c)) (sockets st)); [|discriminate].
  unfold on_connection_update in H.
  destruct (strict_eq_str (connection upd) (u "close")) eqn:Ec.
  - rewrite (close_is_not_open _ Ec) in Ho. discriminate.
  - rewrite Ho in H. injection H as <-.
    unfold send_startup. now destruct (conn_user_id c).
Qed.

(** What the manager adds to its outbox in one step. *)
Lemma exec_outbox (e : event) (st st' : state) :
  exec e st = Some st' ->
  outbox st' = outbox st \/
  (is_open e = true /\
   exists c id, conn_user_id c = Some id /\
     outbox st' = outbox st ++
       [ {| via := c; jid_of := id; content_of := JObj [ (u "text", JStr up) ] |} ]).
Proof.
  destruct e as [i | | c | c upd]; cbn [exec is_open].
  - destruct (nth_error (timers st) i); [|discriminate]. intros [= <-]. now left.
  - destruct (attempts st); [discriminate|]. intros [= <-]. now left.
  - destruct (attempts st); [discriminate|].
    destruct (Nat.eqb (conn_id c) (made st)); [|discriminate].
    intros [= <-]. now left.
  - destruct (existsb (Nat.eqb (conn_id c)) (sockets st)); [|discriminate].
    unfold on_connection_update.
    destruct (strict_eq_str (connection upd) (u "close"));
      intros [= <-]; [now left|].
    destruct (strict_eq_str (connection upd) (u "open")); [|now left].
    unfold send_startup. destruct (conn_user_id c) as [id|] eqn:Eu; [|now left].
    right. split; [reflexivity|]. now exists c, id.
Qed.

End HandleOverTime.

(** X7. From the start of the server on, a request that passes the
    validation is answered 503 exactly as long as no open signal has been
    handled: before the first one every such request gets 503, and after
    it none ever does, whatever closes, failures and retries follow. *)
Theorem gate_opens_once (send : send_op) (now : jsstring)
    (tr : list event) (st : state) (req : request) :
  run tr boot = Some st ->
  truthy (number req) = true -> truthy (message req) = true ->
  (status (fst (send_otp send now (sockInstance st) req)) = 503%N <->
   existsb is_open tr = false).
Proof.
  intros Hrun Hn Hm. rewrite status_503_iff.
  pose proof (run_published tr boot st Hrun) as Hp.
  change (published boot) with false in Hp. rewrite orb_false_l in Hp.
  unfold published in Hp. destruct (sockInstance st) as [c|]; split.
  - intros [_ [_ H]]. discriminate.
  - intros H. rewrite H in Hp. discriminate.
  - intros _. now rewrite <- Hp.
  - auto.
Qed.

Lemma gate_opens_once_witness :
  status (fst (send_otp always_resolves now0 (sockInstance st_reconnecting) req0)) = 503%N
  <-> existsb is_open tr_reconnecting = false.
Proof.
  apply (gate_opens_once always_resolves now0 tr_reconnecting st_reconnecting req0);
    reflexivity.
Defined.

(** X8. The published handle is the socket of the latest open signal: if
    the events end with an open signal from [c] followed by events none of
    which is an open signal, the handle is [c]. *)
Theorem handle_is_latest_open (tr1 tr2 : list event) (c : conn) (upd : update)
    (st0 st : state) :
  run (tr1 ++ ConnectionUpdate c upd :: tr2) st0 = Some st ->
  is_open (ConnectionUpdate c upd) = true ->
  existsb is_open tr2 = false ->
  sockInstance st = Some c.
Proof.
  intros Hrun Ho Hno. rewrite run_app in Hrun.
  destruct (run tr1 st0) as [st1|]; [|discriminate].
  cbn [run] in Hrun.
  destruct (exec (ConnectionUpdate c upd) st1) as [st2|] eqn:E; [|discriminate].
  rewrite (run_keeps_handle tr2 st2 st Hrun Hno).
  exact (exec_open_publishes c upd st1 st2 E Ho).
Qed.

Lemma handle_is_latest_open_witness :
  sockInstance st_reopened = Some sock1.
Proof.
  apply (handle_is_latest_open tr_reconnecting [] sock1 open_signal boot st_reopened);
    reflexivity.
Defined.

(** X9. The manager never takes the handle back: once a handle is
    published, a handle is published after every further sequence of
    events, closes and failed attempts included. *)
Theorem handle_never_cleared (tr : list event) (st st' : state) (c : conn) :
  run tr st = Some st' ->
  sockInstance st = Some c ->
  exists c', sockInstance st' = Some c'.
Proof.
  intros Hrun Hc. pose proof (run_published tr st st' Hrun) as Hp.
  unfold published in Hp. rewrite Hc in Hp.
  destruct (sockInstance st') as [c'|]; [now exists c' | discriminate].
Qed.

Lemma handle_never_cleared_witness :
  exists c', sockInstance st_reconnecting = Some c'.
Proof.
  apply (handle_never_cleared
           [ ConnectionUpdate sock0 close_signal; TimerFires 0; ConnectSucceeds sock1 ]
           st_opened st_reconnecting sock0); reflexivity.
Defined.

(** The outbox along a run. *)
Lemma run_outbox (P : send_call -> Prop) (tr : list event) (st st' : state) :
  (forall c id, conn_user_id c = Some id ->
     P {| via := c; jid_of := id; content_of := JObj [ (u "text", JStr up) ] |}) ->
  run tr st = Some st' ->
  Forall P (outbox st) ->
  Forall P (outbox st') /\
  List.length (outbox st') <= List.length (outbox st) + List.length (filter is_open tr).
Proof.
  intros HP. revert st; induction tr as [|e tr IH]; simpl; intros st.
  - intros [= <-] H. split; [exact H | lia].
  - destruct (exec e st) as [st1|] eqn:E; [|discriminate].
    intros Hrun H.
    destruct (exec_outbox e st st1 E) as [Eo | [Ho [c [id [Hu Eo]]]]].
    + rewrite <- Eo in H. destruct (IH st1 Hrun H) as [H1 H2].
      split; [exact H1|]. rewrite Eo in H2.
      destruct (is_open e); simpl; lia.
    + assert (H' : Forall P (outbox st1)).
      { rewrite Eo. apply Forall_app. split; [exact H|].
        constructor; [now apply HP | constructor]. }
      destruct (IH st1 Hrun H') as [H1 H2].
      split; [exact H1|]. rewrite Eo, length_app in H2. rewrite Ho. simpl in *. lia.
Qed.

(** X10. All the manager ever sends by itself is the startup text, to the
    own address of the socket it sends through, and at most once per open
    signal. *)
Theorem outbox_only_startup (tr : list event) (st : state) :
  run tr boot = Some st ->
  Forall (fun call =>
            content_of call = JObj [ (u "text", JStr up) ] /\
            conn_user_id (via call) = Some (jid_of call)) (outbox st) /\
  List.length (outbox st) <= List.length (filter is_open tr).
Proof.
  intros Hrun.
  apply (run_outbox
           (fun call => content_of call = JObj [ (u "text", JStr up) ] /\
                        conn_user_id (via call) = Some (jid_of call))
           tr boot st); [| exact Hrun | constructor].
  intros c id Hu. split; [reflexivity | exact Hu].
Qed.

Lemma outbox_only_startup_witness :
  Forall (fun call =>
            content_of call = JObj [ (u "text", JStr up) ] /\
            conn_user_id (via call) = Some (jid_of call)) (outbox st_reopened) /\
  List.length (outbox st_reopened) <= List.length (filter is_open tr_reopened).
Proof.
  apply (outbox_only_startup tr_reopened st_reopened). reflexivity.
Defined.

(** ** Start-up values and the logger *)

Import Process.

(** X11. [PORT] is the number 5000 exactly when the variable is unset or
    empty; any other value is kept as the string it is, unparsed. *)
Theorem port_default (env_port : option jsstring) :
  (PORT env_port = JNum (Finite 5000) <-> env_port = None \/ env_port = Some []) /\
  (forall s, env_port = Some s -> s <> [] -> PORT env_port = JStr s).
Proof.
  split.
  - destruct env_port as [[|ch s]|]; unfold PORT, js_or; simpl; split;
      try reflexivity; try discriminate; auto.
    intros [H | H]; discriminate.
  - intros s -> Hs. destruct s; [contradiction | reflexivity].
Qed.

(** X12. [logError] hands [console.error] the prefix ["[time] [context]"]
    and then one value: the stack of the error when the error is an object
    with a truthy [stack], and the error itself in every other case (an
    object whose stack is missing or falsy, a string, a number,
    [undefined], [null], none of which makes it throw); what it logs for a
    truthy error is truthy. *)
Theorem logError_keeps_error (time context : jsstring) (err : jsval) :
  exists logged,
    logError time context err =
      [ JStr (u "[" ++ time ++ u "] [" ++ context ++ u "]"); logged ] /\
    (forall l, err = JObj l -> truthy (get_prop l (u "stack")) = true ->
       logged = get_prop l (u "stack")) /\
    (forall l, err = JObj l -> truthy (get_prop l (u "stack")) = false ->
       logged = err) /\
    ((forall l, err <> JObj l) -> logged = err) /\
    (truthy err = true -> truthy logged = true).
Proof.
  exists (js_or (opt_stack err) err). split; [reflexivity|].
  unfold js_or. repeat split.
  - intros l -> H. cbn [opt_stack]. now rewrite H.
  - intros l -> H. cbn [opt_stack]. now rewrite H.
  - intros H. destruct err; try reflexivity. now destruct (H l).
  - intros H. destruct (truthy (opt_stack err)) eqn:E; assumption.
Qed.

Lemma logError_keeps_error_witness :
  logError now0 (u "connectToWA") err_with_stack =
    [ JStr (u "[2024-05-01T10:00:00.000Z] [connectToWA]");
      JStr (u "Error: Connection Failure at connectToWA") ] /\
  logError now0 (u "connectToWA") err_without_stack =
    [ JStr (u "[2024-05-01T10:00:00.000Z] [connectToWA]"); err_without_stack ].
Proof.
  split.
  - destruct (logError_keeps_error now0 (u "connectToWA") err_with_stack)
      as [logged [E [H _]]].
    rewrite E. now rewrite (H _ eq_refl eq_refl).
  - destruct (logError_keeps_error now0 (u "connectToWA") err_without_stack)
      as [logged [E [_ [H _]]]].
    rewrite E. now rewrite (H _ eq_refl eq_refl).
Defined.

(** C5, on the code: after a connection that opened has signalled its
    close, no socket is live and the reconnect timer is pending, yet a
    request with both fields present does not get the 503 of the
    connection gate: the handle of the ended socket is still in
    [sockInstance], the send operation is attempted through it, and the
    response is 200 when that send resolves and the classified error (500
    for ["Connection Closed"]) when it rejects. *)
Theorem stale_handle_passes_gate :
  run tr_closed boot = Some st_closed /\
  sockets st_closed = [] /\
  attempts st_closed = 0 /\
  truthy (number req0) = true /\
  truthy (message req0) = true /\
  status (fst (send_otp always_resolves now0 (sockInstance st_closed) req0)) = 200%N /\
  List.map via (snd (send_otp always_resolves now0 (sockInstance st_closed) req0))
    = [ sock0 ] /\
  status (fst (send_otp (always_rejects (u "Connection Closed")) now0
                 (sockInstance st_closed) req0)) = 500%N /\
  List.map via (snd (send_otp (always_rejects (u "Connection Closed")) now0
                       (sockInstance st_closed) req0))
    = [ sock0 ].
Proof.
  repeat split.
Qed.
